(** * AdmissionController: the admission review handler of [main.go]

    A shallow embedding of [parseAdmissionReview], [httpError] and
    [handleAdmissionReview], with the Go packages they call ([net/http],
    [log], [encoding/json], the Kubernetes API types and
    [resource.Quantity]) reduced to what the handler uses of them. *)

From Stdlib Require Import ZArith QArith Qpower.
From stdpp Require Import base option strings list gmap.

Local Open Scope Z_scope.
Local Open Scope string_scope.

(** A Go [error] is kept as the text its [Error()] method returns. *)
Definition error : Type := string.

(** ** k8s.io/apimachinery/pkg/api/resource *)

Module resource.

(** Modelled from the spec: [resource.Quantity] and its [Add] method belong
    to k8s.io/apimachinery, which is not part of the sources.  The spec
    describes a quantity as a numeric value with a scale, and [Add] as an
    accumulate operation with exact decimal semantics.  A quantity is a
    decimal number [value * 10^scale]; [value] is unbounded, as the
    library leaves its 64-bit representation for an arbitrary-precision
    one when an operation would overflow.  The display format of a
    quantity is not represented. *)
Record Quantity : Type := mkQuantity { value : Z; scale : Z }.

(** The zero value of the Go type, what [var q resource.Quantity] holds. *)
Definition zero : Quantity := {| value := 0; scale := 0 |}.

(** Modelled from the spec: [q.Add(y)], exact decimal addition.  Both
    operands are brought to the finer of the two scales, where the
    mantissas add as integers. *)
Definition Add (q y : Quantity) : Quantity :=
  let s := Z.min (scale q) (scale y) in
  {| value := value q * 10 ^ (scale q - s) + value y * 10 ^ (scale y - s);
     scale := s |}.

(** Modelled from the spec: [resource.NewMilliQuantity v] is the quantity
    written [<v>m], as in 500m, and [resource.NewQuantity v] the one written
    [<v>]; the format argument of the library goes with the display format. *)
Definition NewMilliQuantity (v : Z) : Quantity := {| value := v; scale := -3 |}.
Definition NewQuantity (v : Z) : Quantity := {| value := v; scale := 0 |}.

(** The number a quantity denotes. *)
Definition toQ (q : Quantity) : Q := (inject_Z (value q) * (10 # 1) ^ scale q)%Q.

End resource.

(** ** k8s.io/apimachinery/pkg/apis/meta/v1 and pkg/runtime *)

Module metav1.

Module TypeMeta.
Record t : Type := mk { Kind : string; APIVersion : string }.
Definition zero : t := {| Kind := EmptyString; APIVersion := EmptyString |}.
End TypeMeta.

Module GroupVersionKind.
Record t : Type := mk { Group : string; Version : string; Kind : string }.
End GroupVersionKind.

Module Status.
Record t : Type := mk { Message : string }.
End Status.

End metav1.

Module runtime.

Module RawExtension.
(** [Raw] holds the serialized object, undecoded. *)
Record t : Type := mk { Raw : string }.
End RawExtension.

End runtime.

(** ** k8s.io/api/core/v1 *)

Module corev1.

Definition ResourceName : Type := string.
Definition ResourceCPU : ResourceName := "cpu".
Definition ResourceMemory : ResourceName := "memory".

(** [ResourceList] is [map[ResourceName]resource.Quantity]. *)
Abbreviation ResourceList := (gmap string resource.Quantity).

Module ResourceRequirements.
Record t : Type := mk { Limits : ResourceList; Requests : ResourceList }.
End ResourceRequirements.

Module Container.
Record t : Type := mk { Name : string; Resources : ResourceRequirements.t }.
End Container.

Module PodSpec.
Record t : Type := mk { Containers : list Container.t }.
End PodSpec.

Module Pod.
Record t : Type := mk { Spec : PodSpec.t }.
End Pod.

End corev1.

(** ** k8s.io/api/admission/v1 *)

Module admissionv1.

(** Of the request, the fields the handler reads. *)
Module AdmissionRequest.
Record t : Type := mk {
  UID : string;
  Kind : metav1.GroupVersionKind.t;
  Object : runtime.RawExtension.t
}.
End AdmissionRequest.

Module AdmissionResponse.
Record t : Type := mk {
  UID : string;
  Allowed : bool;
  Result : option metav1.Status.t
}.
End AdmissionResponse.

(** [Request] and [Response] are pointers: [None] is Go's [nil]. *)
Module AdmissionReview.
Record t : Type := mk {
  TypeMeta : metav1.TypeMeta.t;
  Request : option AdmissionRequest.t;
  Response : option AdmissionResponse.t
}.
End AdmissionReview.

End admissionv1.

(** ** net/http *)

Module http.

Definition StatusOK : Z := 200.
Definition StatusBadRequest : Z := 400.
Definition StatusInternalServerError : Z := 500.

(** What is written to a response: bytes given as such, or the JSON
    encoding of a value, kept as the value that was encoded. *)
Inductive Payload : Type :=
| PlainText (s : string)
| JSONDocument (v : admissionv1.AdmissionReview.t).

(** The response writer of one request: the header map, the status code
    once the header has been sent, and what has been written. *)
Record ResponseWriter : Type := mkResponseWriter {
  Header : gmap string string;
  status : option Z;
  body : list Payload
}.

Definition NewResponseWriter : ResponseWriter :=
  {| Header := ∅; status := None; body := [] |}.

(** [w.Header().Set(k, v)] *)
Definition Header_Set (k v : string) (w : ResponseWriter) : ResponseWriter :=
  {| Header := <[k := v]> (Header w); status := status w; body := body w |}.

(** [w.WriteHeader(code)]: only the first call sets the status. *)
Definition WriteHeader (code : Z) (w : ResponseWriter) : ResponseWriter :=
  match status w with
  | Some _ => w
  | None => {| Header := Header w; status := Some code; body := body w |}
  end.

(** [w.Write(p)]: sends the header with 200 if none was sent before. *)
Definition Write (p : Payload) (w : ResponseWriter) : ResponseWriter :=
  let w := WriteHeader StatusOK w in
  {| Header := Header w; status := status w; body := body w ++ [p] |}.

(** The line feed [fmt.Fprintln] ends its output with. *)
Definition newline : string := String (Ascii.ascii_of_nat 10) EmptyString.

(** [http.Error(w, msg, code)] *)
Definition Error (msg : string) (code : Z) (w : ResponseWriter) : ResponseWriter :=
  let w := Header_Set "Content-Type" "text/plain; charset=utf-8" w in
  let w := Header_Set "X-Content-Type-Options" "nosniff" w in
  let w := WriteHeader code w in
  Write (PlainText (msg +:+ newline)) w.

(** The request, as far as the handler looks at it: [Body] is what
    [io.ReadAll(req.Body)] returns. *)
Record Request : Type := mkRequest { Body : error + string }.

End http.

(** ** encoding/json *)

Module json.

(** The decoders and the encoder the handler calls.  They are library
    code; the handler is embedded over any choice of them.
    [Encode v] is the error that [json.NewEncoder(w).Encode(v)] returns,
    [None] when the value was encoded and written.  The envelopes that the
    handler encodes hold a string, a boolean and nil pointers and always
    marshal, so that an error is the error of [w.Write]. *)
Class Codec : Type := mkCodec {
  UnmarshalAdmissionReview : string → error + admissionv1.AdmissionReview.t;
  UnmarshalPod : string → error + corev1.Pod.t;
  Encode : admissionv1.AdmissionReview.t → option error
}.

End json.

(** ** log and slog *)

Module log.

(** A log call is kept as its format and its arguments, before they are
    rendered to text. *)
Inductive Arg : Type :=
| Str (s : string)
| Err (e : error)
| Qty (q : resource.Quantity).

Record Entry : Type := mkEntry { format : string; args : list Arg }.

End log.


(** ** The handler's effects

    A handler invocation mutates its response writer and appends to the
    process-wide logger; a nil pointer dereference panics and leaves the
    handler at once.  [World] holds the two mutable objects; a computation
    of [M A] takes a world to its result and the world it leaves. *)

Record World : Type := mkWorld { w : http.ResponseWriter; logged : list log.Entry }.

Inductive Result (A : Type) : Type :=
| Done (a : A)
| Panic (reason : string).

Arguments Done {A} a.
Arguments Panic {A} reason.

Definition M (A : Type) : Type := World → Result A * World.

#[global] Instance M_ret : MRet M := λ A a st, (Done a, st).

#[global] Instance M_bind : MBind M := λ A B f m st,
  match m st with
  | (Done a, st') => f a st'
  | (Panic reason, st') => (Panic reason, st')
  end.

Definition panic {A : Type} (reason : string) : M A := λ st, (Panic reason, st).

(** The text of the panic that reading through [nil] raises. *)
Definition nilDereference : string :=
  "runtime error: invalid memory address or nil pointer dereference".

(** Reading through a pointer: [nil] panics. *)
Definition deref {A : Type} (p : option A) : M A :=
  match p with
  | Some a => mret a
  | None => panic nilDereference
  end.

(** A step on the response writer. *)
Definition onWriter (f : http.ResponseWriter → http.ResponseWriter) : M unit :=
  λ st, (Done tt, {| w := f (w st); logged := logged st |}).

(** [log.Print], [log.Println], [log.Printf] and [slog.Error]: one more
    entry at the end of the log. *)
Definition Printf (format : string) (args : list log.Arg) : M unit :=
  λ st, (Done tt, {| w := w st;
                     logged := logged st ++ [ {| log.format := format; log.args := args |} ] |}).

Definition Println (msg : string) : M unit := Printf msg [].

Definition slog_Error (msg : string) (args : list log.Arg) : M unit := Printf msg args.

(** [fmt.Errorf] with the one format the handler uses, a text ending in [%s]. *)
Definition Errorf (prefix arg : string) : error := prefix +:+ arg.

(** ** main.go *)

Section Handler.

Context {J : json.Codec}.

(** [json.NewEncoder(w).Encode(v)]: the document is written, or the write
    fails.  A write sends the header first, with status 200 when no status
    was sent before, so that a write that fails leaves the status sent; the
    body keeps the writes that completed. *)
Definition NewEncoder_Encode (v : admissionv1.AdmissionReview.t) : M (option error) :=
  match json.Encode v with
  | None => onWriter (http.Write (http.JSONDocument v)) ;; mret None
  | Some err => onWriter (http.WriteHeader http.StatusOK) ;; mret (Some err)
  end.

(** Helper function to log errors and send an HTTP 400 response *)
Definition httpError (err : error) : M unit :=
  slog_Error "unable to complete request" [log.Str "error"; log.Str err] ;;
  onWriter (http.WriteHeader http.StatusBadRequest) ;;
  onWriter (http.Write (http.PlainText err)).

(** Parses incoming HTTP request into an AdmissionReview struct.  The Go
    function returns a pointer and an error; the pair is kept. *)
Definition parseAdmissionReview (req : http.Request)
  : M (option admissionv1.AdmissionReview.t * option error) :=
  match http.Body req with
  | inl err =>
      Printf "error reading request body" [log.Err err] ;;
      mret (None, Some err)
  | inr reqData =>
      match json.UnmarshalAdmissionReview reqData with
      | inl err =>
          Printf "Error deserializing request: %v" [log.Err err] ;;
          mret (None, Some err)
      | inr admissionReviewRequest => mret (Some admissionReviewRequest, None)
      end
  end.

(** One round of the loop over [pod.Spec.Containers]: the totals before
    the container, the totals after it. *)
Definition addContainer (totals : resource.Quantity * resource.Quantity)
    (container : corev1.Container.t) : M (resource.Quantity * resource.Quantity) :=
  let '(totalMemory, totalCPU) := totals in
  let Requests := corev1.ResourceRequirements.Requests (corev1.Container.Resources container) in
  totalCPU ←
    match Requests !! corev1.ResourceCPU with
    | Some cpu =>
        Printf "Container %s requests %s of CPU"
               [log.Str (corev1.Container.Name container); log.Qty cpu] ;;
        mret (resource.Add totalCPU cpu)
    | None => mret totalCPU
    end ;
  totalMemory ←
    match Requests !! corev1.ResourceMemory with
    | Some memory =>
        Printf "Container %s requests %s of memory"
               [log.Str (corev1.Container.Name container); log.Qty memory] ;;
        mret (resource.Add totalMemory memory)
    | None => mret totalMemory
    end ;
  mret (totalMemory, totalCPU).

(** The loop [for _, container := range pod.Spec.Containers]. *)
Fixpoint rangeContainers (containers : list corev1.Container.t)
    (totals : resource.Quantity * resource.Quantity)
  : M (resource.Quantity * resource.Quantity) :=
  match containers with
  | [] => mret totals
  | container :: rest =>
      totals ← addContainer totals container ;
      rangeContainers rest totals
  end.

(** Processes AdmissionReview requests, calculates resource requests, and
    logs them.  The [err] of [parseAdmissionReview] is bound and not read. *)
Definition handleAdmissionReview (r : http.Request) : M unit :=
  Println "In handleAdmissionReview ..." ;;
  '(admissionReviewRequest, err) ← parseAdmissionReview r ;
  (* Make sure the incoming request is for a Pod *)
  review ← deref admissionReviewRequest ;
  request ← deref (admissionv1.AdmissionReview.Request review) ;
  let kind := metav1.GroupVersionKind.Kind (admissionv1.AdmissionRequest.Kind request) in
  if bool_decide (kind ≠ "Pod") then
    httpError (Errorf "expected request for kind Pod but got " kind)
  else
    (* Deserialize the Pod object from the request *)
    match json.UnmarshalPod
            (runtime.RawExtension.Raw (admissionv1.AdmissionRequest.Object request)) with
    | inl err => httpError err
    | inr pod =>
        Println "Successfully decoded AdmissionReview" ;;
        (* Calculate total CPU and memory requested by all containers *)
        '(totalMemory, totalCPU) ←
          rangeContainers (corev1.PodSpec.Containers (corev1.Pod.Spec pod))
                          (resource.zero, resource.zero) ;
        (* Log the total CPU and memory requested *)
        Printf "Total Memory Requested: %s\n" [log.Qty totalMemory] ;;
        Printf "Total CPU Requested: %s\n" [log.Qty totalCPU] ;;
        (* Create an AdmissionResponse to allow the pod creation *)
        let admissionResponse :=
          {| admissionv1.AdmissionResponse.UID := admissionv1.AdmissionRequest.UID request;
             admissionv1.AdmissionResponse.Allowed := true;
             admissionv1.AdmissionResponse.Result := None |} in
        (* Wrap the response in an AdmissionReview and send it back *)
        let admissionReviewResponse :=
          {| admissionv1.AdmissionReview.TypeMeta := metav1.TypeMeta.zero;
             admissionv1.AdmissionReview.Request := None;
             admissionv1.AdmissionReview.Response := Some admissionResponse |} in
        onWriter (http.Header_Set "Content-Type" "application/json") ;;
        err ← NewEncoder_Encode admissionReviewResponse ;
        match err with
        | None => mret tt
        | Some err =>
            Printf "could not encode response: %v" [log.Err err] ;;
            onWriter (http.Error "could not encode response" http.StatusInternalServerError)
        end
    end.

End Handler.

(** ** Observations on a run *)

(** The quantities the containers request under one resource name, in
    container order; a container without an entry contributes none. *)
Definition requested (name : corev1.ResourceName) (containers : list corev1.Container.t)
  : list resource.Quantity :=
  omap (λ c, corev1.ResourceRequirements.Requests (corev1.Container.Resources c) !! name)
       containers.

(** The sum of rational numbers, from zero. *)
Definition sumQ (l : list Q) : Q := foldr Qplus 0%Q l.

(** What the loop logs for a list of containers. *)
Definition containerEntries (containers : list corev1.Container.t) : list log.Entry :=
  containers ≫= λ c,
    let Requests := corev1.ResourceRequirements.Requests (corev1.Container.Resources c) in
    (match Requests !! corev1.ResourceCPU with
     | Some cpu => [ {| log.format := "Container %s requests %s of CPU";
                        log.args := [log.Str (corev1.Container.Name c); log.Qty cpu] |} ]
     | None => []
     end ++
     match Requests !! corev1.ResourceMemory with
     | Some memory => [ {| log.format := "Container %s requests %s of memory";
                           log.args := [log.Str (corev1.Container.Name c); log.Qty memory] |} ]
     | None => []
     end)%list.

(** Two containers that request the same cpu and the same memory; their
    names, their limits and their other requests are free. *)
Definition sameRequests (c c' : corev1.Container.t) : Prop :=
  let R := corev1.ResourceRequirements.Requests (corev1.Container.Resources c) in
  let R' := corev1.ResourceRequirements.Requests (corev1.Container.Resources c') in
  R !! corev1.ResourceCPU = R' !! corev1.ResourceCPU ∧
  R !! corev1.ResourceMemory = R' !! corev1.ResourceMemory.

(** The envelope the handler answers a request with. *)
Definition allowing (uid : string) : admissionv1.AdmissionReview.t :=
  {| admissionv1.AdmissionReview.TypeMeta := metav1.TypeMeta.zero;
     admissionv1.AdmissionReview.Request := None;
     admissionv1.AdmissionReview.Response :=
       Some {| admissionv1.AdmissionResponse.UID := uid;
               admissionv1.AdmissionResponse.Allowed := true;
               admissionv1.AdmissionResponse.Result := None |} |}.

(** A request is served when the handler returns with a status sent;
    [answered st code p] says that the status is [code] and that [p] is all
    that was written. *)
Definition answered (st : World) (code : Z) (p : http.Payload) : Prop :=
  http.status (w st) = Some code ∧ http.body (w st) = [p].

(** A computation that never reads the log: from a given response writer it
    reaches one result and one writer and appends one list of entries,
    whatever was logged before. *)
Definition oblivious {A : Type} (m : M A) : Prop :=
  ∀ w0, ∃ res w1 entries, ∀ l,
    m {| w := w0; logged := l |} = (res, {| w := w1; logged := l ++ entries |}).

(** ** Sample requests

    JSON text is built from its parts; [jstr s] is [s] between quotes. *)

Module Samples.

Definition dq : string := String (Ascii.ascii_of_nat 34) EmptyString.
Definition jstr (s : string) : string := dq +:+ s +:+ dq.
Definition member (k v : string) : string := jstr k +:+ ":" +:+ v.
Definition sepBy (sep : string) (l : list string) : string :=
  match l with
  | [] => EmptyString
  | x :: xs => foldl (λ acc y, acc +:+ sep +:+ y) x xs
  end.
Definition obj (members : list string) : string := "{" +:+ sepBy "," members +:+ "}".
Definition arr (items : list string) : string := "[" +:+ sepBy "," items +:+ "]".

Definition containerJSON (name cpu memory : string) : string :=
  obj [ member "name" (jstr name);
        member "resources"
          (obj [ member "requests"
                   (obj [ member "cpu" (jstr cpu); member "memory" (jstr memory) ]) ]) ].

(** A Pod of two containers: 500m of cpu each, 128Mi and 256Mi of memory. *)
Definition podJSON : string :=
  obj [ member "spec"
          (obj [ member "containers"
                   (arr [ containerJSON "app" "500m" "128Mi";
                          containerJSON "sidecar" "500m" "256Mi" ]) ]) ].

Definition container (name : string) (milliCPU bytes : Z) : corev1.Container.t :=
  {| corev1.Container.Name := name;
     corev1.Container.Resources :=
       {| corev1.ResourceRequirements.Limits := ∅;
          corev1.ResourceRequirements.Requests :=
            {[ corev1.ResourceCPU := resource.NewMilliQuantity milliCPU;
               corev1.ResourceMemory := resource.NewQuantity bytes ]} |} |}.

Definition pod : corev1.Pod.t :=
  {| corev1.Pod.Spec :=
       {| corev1.PodSpec.Containers :=
            [ container "app" 500 (128 * 2 ^ 20);
              container "sidecar" 500 (256 * 2 ^ 20) ] |} |}.

(** An object that is JSON and not a Pod: [containers] is a number. *)
Definition brokenPodJSON : string :=
  obj [ member "spec" (obj [ member "containers" "7" ]) ].

Definition brokenPodError : error :=
  "json: cannot unmarshal number into Go struct field PodSpec.spec.containers of type []v1.Container".

Definition reviewJSON (uid kind object : string) : string :=
  obj [ member "apiVersion" (jstr "admission.k8s.io/v1");
        member "kind" (jstr "AdmissionReview");
        member "request"
          (obj [ member "uid" (jstr uid);
                 member "kind" (obj [ member "version" (jstr "v1"); member "kind" (jstr kind) ]);
                 member "object" object ]) ].

Definition request (uid kind object : string) : admissionv1.AdmissionRequest.t :=
  {| admissionv1.AdmissionRequest.UID := uid;
     admissionv1.AdmissionRequest.Kind :=
       {| metav1.GroupVersionKind.Group := EmptyString;
          metav1.GroupVersionKind.Version := "v1";
          metav1.GroupVersionKind.Kind := kind |};
     admissionv1.AdmissionRequest.Object := {| runtime.RawExtension.Raw := object |} |}.

Definition review (uid kind object : string) : admissionv1.AdmissionReview.t :=
  {| admissionv1.AdmissionReview.TypeMeta :=
       {| metav1.TypeMeta.Kind := "AdmissionReview";
          metav1.TypeMeta.APIVersion := "admission.k8s.io/v1" |};
     admissionv1.AdmissionReview.Request := Some (request uid kind object);
     admissionv1.AdmissionReview.Response := None |}.

(** The envelope [{}] decodes to: no type, no request, no response. *)
Definition emptyReview : admissionv1.AdmissionReview.t :=
  {| admissionv1.AdmissionReview.TypeMeta := metav1.TypeMeta.zero;
     admissionv1.AdmissionReview.Request := None;
     admissionv1.AdmissionReview.Response := None |}.

Definition uid : string := "705ab4f5-6393-11e8-b7cc-42010a800002".

(** The documents of the sample codec and what [encoding/json] decodes
    them to.  Any other text is taken for a syntax error, which is what it
    is for [not json]. *)
Definition documents : list (string * admissionv1.AdmissionReview.t) :=
  [ (reviewJSON uid "Pod" podJSON, review uid "Pod" podJSON);
    (reviewJSON uid "Deployment" podJSON, review uid "Deployment" podJSON);
    (reviewJSON uid "Pod" brokenPodJSON, review uid "Pod" brokenPodJSON);
    ("{}", emptyReview) ].

Fixpoint assoc {A : Type} (k : string) (l : list (string * A)) : option A :=
  match l with
  | [] => None
  | (k', a) :: rest => if String.eqb k k' then Some a else assoc k rest
  end.

Definition codec : json.Codec :=
  {| json.UnmarshalAdmissionReview data :=
       match assoc data documents with
       | Some v => inr v
       | None => inl "invalid character 'o' in literal null (expecting 'u')"
       end;
     json.UnmarshalPod data :=
       match assoc data [ (podJSON, pod) ] with
       | Some v => inr v
       | None => inl brokenPodError
       end;
     json.Encode _ := None |}.

Definition post (body : string) : http.Request := {| http.Body := inr body |}.

(** Two containers with the requests of the first sample container: one
    also asks for ephemeral storage and sets limits, the other has another
    name and nothing more. *)
Definition crowded : corev1.Container.t :=
  {| corev1.Container.Name := "app";
     corev1.Container.Resources :=
       {| corev1.ResourceRequirements.Limits :=
            {[ corev1.ResourceCPU := resource.NewQuantity 2;
               corev1.ResourceMemory := resource.NewQuantity (512 * 2 ^ 20) ]};
          corev1.ResourceRequirements.Requests :=
            {[ corev1.ResourceCPU := resource.NewMilliQuantity 500;
               corev1.ResourceMemory := resource.NewQuantity (128 * 2 ^ 20);
               "ephemeral-storage" := resource.NewQuantity (2 ^ 30) ]} |} |}.

Definition plain : corev1.Container.t := container "worker" 500 (128 * 2 ^ 20).

(** A world with a new response writer and nothing logged. *)
Definition fresh : World := {| w := http.NewResponseWriter; logged := [] |}.

End Samples.

(** The world a request arrives in: a new response writer, and the log as
    earlier requests left it. *)
Definition arrival (l : list log.Entry) : World :=
  {| w := http.NewResponseWriter; logged := l |}.

(** The handler has [envelope] to send and is left in [st]: the envelope is
    the whole answer, with status 200, unless the encoder fails on it, and
    then the answer is the error text, under the status 200 that the failed
    write has sent. *)
Definition delivers {J : json.Codec} (st : World) (envelope : admissionv1.AdmissionReview.t)
  : Prop :=
  match json.Encode envelope with
  | None => answered st http.StatusOK (http.JSONDocument envelope)
  | Some _ =>
      answered st http.StatusOK
               (http.PlainText ("could not encode response" +:+ http.newline))
  end.

(** A log entry. *)
Definition entry (format : string) (args : list log.Arg) : log.Entry :=
  {| log.format := format; log.args := args |}.

(** ** The kinds of request

    What a request is to the handler, by what reading and decoding it give:
    one constructor for each way through [handleAdmissionReview]. *)

Inductive Fate {J : json.Codec} (r : http.Request) : Prop :=
| Unread (err : error) :
    http.Body r = inl err → Fate r
| Undecoded (data : string) (err : error) :
    http.Body r = inr data →
    json.UnmarshalAdmissionReview data = inl err → Fate r
| NoRequest (data : string) (review : admissionv1.AdmissionReview.t) :
    http.Body r = inr data →
    json.UnmarshalAdmissionReview data = inr review →
    admissionv1.AdmissionReview.Request review = None → Fate r
| OtherKind (data : string) (review : admissionv1.AdmissionReview.t)
    (request : admissionv1.AdmissionRequest.t) :
    http.Body r = inr data →
    json.UnmarshalAdmissionReview data = inr review →
    admissionv1.AdmissionReview.Request review = Some request →
    metav1.GroupVersionKind.Kind (admissionv1.AdmissionRequest.Kind request) ≠ "Pod" → Fate r
| BrokenPod (data : string) (review : admissionv1.AdmissionReview.t)
    (request : admissionv1.AdmissionRequest.t) (err : error) :
    http.Body r = inr data →
    json.UnmarshalAdmissionReview data = inr review →
    admissionv1.AdmissionReview.Request review = Some request →
    metav1.GroupVersionKind.Kind (admissionv1.AdmissionRequest.Kind request) = "Pod" →
    json.UnmarshalPod (runtime.RawExtension.Raw (admissionv1.AdmissionRequest.Object request))
      = inl err → Fate r
| GoodPod (data : string) (review : admissionv1.AdmissionReview.t)
    (request : admissionv1.AdmissionRequest.t) (pod : corev1.Pod.t) :
    http.Body r = inr data →
    json.UnmarshalAdmissionReview data = inr review →
    admissionv1.AdmissionReview.Request review = Some request →
    metav1.GroupVersionKind.Kind (admissionv1.AdmissionRequest.Kind request) = "Pod" →
    json.UnmarshalPod (runtime.RawExtension.Raw (admissionv1.AdmissionRequest.Object request))
      = inr pod → Fate r.

(** The request decodes to an AdmissionReview that holds a request. *)
Definition holdsRequest {J : json.Codec} (r : http.Request)
    (request : admissionv1.AdmissionRequest.t) : Prop :=
  ∃ data review,
    http.Body r = inr data ∧
    json.UnmarshalAdmissionReview data = inr review ∧
    admissionv1.AdmissionReview.Request review = Some request.

(** The object of a request decodes to a Pod. *)
Definition holdsPod {J : json.Codec} (request : admissionv1.AdmissionRequest.t)
    (pod : corev1.Pod.t) : Prop :=
  metav1.GroupVersionKind.Kind (admissionv1.AdmissionRequest.Kind request) = "Pod" ∧
  json.UnmarshalPod (runtime.RawExtension.Raw (admissionv1.AdmissionRequest.Object request))
    = inr pod.

(** The requests the handler allows: a request for a Pod that decodes, with
    an answer that the encoder accepts. *)
Definition accepted {J : json.Codec} (r : http.Request) : Prop :=
  ∃ request pod,
    holdsRequest r request ∧ holdsPod request pod ∧
    json.Encode (allowing (admissionv1.AdmissionRequest.UID request)) = None.

(** The requests the handler refuses: a request for another kind, or for a
    Pod that does not decode. *)
Definition refused {J : json.Codec} (r : http.Request) : Prop :=
  ∃ request,
    holdsRequest r request ∧
    (metav1.GroupVersionKind.Kind (admissionv1.AdmissionRequest.Kind request) ≠ "Pod" ∨
     ∃ err, json.UnmarshalPod
              (runtime.RawExtension.Raw (admissionv1.AdmissionRequest.Object request))
            = inl err).

(** ** More sample requests *)

Module Fixtures.

(** A Pod of one container that requests nothing. *)
Definition idle : corev1.Container.t :=
  {| corev1.Container.Name := "idle";
     corev1.Container.Resources :=
       {| corev1.ResourceRequirements.Limits := ∅;
          corev1.ResourceRequirements.Requests := ∅ |} |}.

Definition quietPodJSON : string :=
  Samples.obj [ Samples.member "spec"
    (Samples.obj [ Samples.member "containers"
      (Samples.arr [ Samples.obj [ Samples.member "name" (Samples.jstr "idle") ] ]) ]) ].

Definition quietPod : corev1.Pod.t :=
  {| corev1.Pod.Spec := {| corev1.PodSpec.Containers := [ idle ] |} |}.

(** The sample codec with one more document, the review of the quiet Pod. *)
Definition codec : json.Codec :=
  {| json.UnmarshalAdmissionReview data :=
       if String.eqb data (Samples.reviewJSON Samples.uid "Pod" quietPodJSON)
       then inr (Samples.review Samples.uid "Pod" quietPodJSON)
       else json.UnmarshalAdmissionReview (Codec := Samples.codec) data;
     json.UnmarshalPod data :=
       if String.eqb data quietPodJSON then inr quietPod
       else json.UnmarshalPod (Codec := Samples.codec) data;
     json.Encode _ := None |}.



End Fixtures.

(** * Properties *)

(** ** Quantities add exactly *)

Lemma toQ_zero : (resource.toQ resource.zero == 0)%Q.
Proof. reflexivity. Qed.

Lemma toQ_shift (v s k : Z) :
  (0 ≤ k)%Z → (inject_Z (v * 10 ^ k) * (10 # 1) ^ s == inject_Z v * (10 # 1) ^ (k + s))%Q.
Proof.
  intros Hk.
  rewrite inject_Z_mult, (Zpower_Qpower 10 k Hk).
  rewrite (Qpower_plus (10 # 1) k s) by discriminate.
  change (inject_Z 10) with (10 # 1)%Q.
  ring.
Qed.

Lemma toQ_Add (q y : resource.Quantity) :
  (resource.toQ (resource.Add q y) == resource.toQ q + resource.toQ y)%Q.
Proof.
  destruct q as [vq sq], y as [vy sy].
  unfold resource.toQ, resource.Add; cbn [resource.value resource.scale].
  rewrite inject_Z_plus, Qmult_plus_distr_l.
  rewrite !toQ_shift by lia.
  replace (sq - sq `min` sy + sq `min` sy) with sq by lia.
  replace (sy - sq `min` sy + sq `min` sy) with sy by lia.
  reflexivity.
Qed.

Lemma toQ_foldl_Add (l : list resource.Quantity) (total : resource.Quantity) :
  (resource.toQ (foldl resource.Add total l)
   == resource.toQ total + sumQ (resource.toQ <$> l))%Q.
Proof.
  revert total; induction l as [|q l IH]; intros total.
  - cbn. ring.
  - rewrite fmap_cons. cbn [foldl sumQ foldr].
    rewrite IH, toQ_Add. fold (sumQ (resource.toQ <$> l)). ring.
Qed.

(** Runs the monad's operations in the goal. *)
Ltac run :=
  unfold mbind, M_bind, mret, M_ret, httpError, Println, slog_Error, Printf,
    onWriter, deref, panic;
  cbn.

(** ** The loop over the containers *)

Lemma requested_cons (name : corev1.ResourceName) (c : corev1.Container.t)
    (cs : list corev1.Container.t) :
  requested name (c :: cs) =
  match corev1.ResourceRequirements.Requests (corev1.Container.Resources c) !! name with
  | Some q => q :: requested name cs
  | None => requested name cs
  end.
Proof. reflexivity. Qed.

Lemma rangeContainers_run (cs : list corev1.Container.t)
    (totalMemory totalCPU : resource.Quantity) (st : World) :
  rangeContainers cs (totalMemory, totalCPU) st =
  (Done (foldl resource.Add totalMemory (requested corev1.ResourceMemory cs),
         foldl resource.Add totalCPU (requested corev1.ResourceCPU cs)),
   {| w := w st; logged := logged st ++ containerEntries cs |}).
Proof.
  revert totalMemory totalCPU st.
  induction cs as [|c cs IH]; intros totalMemory totalCPU st.
  - destruct st; simpl. by rewrite app_nil_r.
  - rewrite !requested_cons.
    cbn [rangeContainers]. unfold addContainer.
    unfold containerEntries in *. cbn [mbind list_bind].
    destruct (_ !! corev1.ResourceCPU) as [cpu|];
      destruct (_ !! corev1.ResourceMemory) as [memory|];
      run; rewrite IH; cbn; by rewrite <- ?app_assoc.
Qed.

(** ** The paths through the handler *)

Section Paths.

Context {J : json.Codec}.

(** The request body cannot be read. *)
Lemma handle_unread (r : http.Request) (st : World) (err : error) :
  http.Body r = inl err →
  handleAdmissionReview r st =
  (Panic nilDereference,
   {| w := w st;
      logged := logged st ++ [ entry "In handleAdmissionReview ..." [];
                               entry "error reading request body" [log.Err err] ] |}).
Proof.
  intros Hbody. unfold handleAdmissionReview, parseAdmissionReview.
  rewrite Hbody. run. by rewrite <- app_assoc.
Qed.

(** The request body is not an AdmissionReview. *)
Lemma handle_undecoded (r : http.Request) (st : World) (data : string) (err : error) :
  http.Body r = inr data →
  json.UnmarshalAdmissionReview data = inl err →
  handleAdmissionReview r st =
  (Panic nilDereference,
   {| w := w st;
      logged := logged st ++ [ entry "In handleAdmissionReview ..." [];
                               entry "Error deserializing request: %v" [log.Err err] ] |}).
Proof.
  intros Hbody Hreview. unfold handleAdmissionReview, parseAdmissionReview.
  rewrite Hbody, Hreview. run. by rewrite <- app_assoc.
Qed.

(** The AdmissionReview holds no request. *)
Lemma handle_no_request (r : http.Request) (st : World) (data : string)
    (review : admissionv1.AdmissionReview.t) :
  http.Body r = inr data →
  json.UnmarshalAdmissionReview data = inr review →
  admissionv1.AdmissionReview.Request review = None →
  handleAdmissionReview r st =
  (Panic nilDereference,
   {| w := w st; logged := logged st ++ [ entry "In handleAdmissionReview ..." [] ] |}).
Proof.
  intros Hbody Hreview Hrequest. unfold handleAdmissionReview, parseAdmissionReview.
  rewrite Hbody, Hreview. run. by rewrite Hrequest.
Qed.

(** The request is for another kind than Pod. *)
Lemma handle_other_kind (r : http.Request) (st : World) (data : string)
    (review : admissionv1.AdmissionReview.t) (request : admissionv1.AdmissionRequest.t) :
  http.Body r = inr data →
  json.UnmarshalAdmissionReview data = inr review →
  admissionv1.AdmissionReview.Request review = Some request →
  metav1.GroupVersionKind.Kind (admissionv1.AdmissionRequest.Kind request) ≠ "Pod" →
  let message := "expected request for kind Pod but got " +:+
                 metav1.GroupVersionKind.Kind (admissionv1.AdmissionRequest.Kind request) in
  handleAdmissionReview r st =
  (Done tt,
   {| w := http.Write (http.PlainText message)
             (http.WriteHeader http.StatusBadRequest (w st));
      logged := logged st ++ [ entry "In handleAdmissionReview ..." [];
                               entry "unable to complete request"
                                     [log.Str "error"; log.Str message] ] |}).
Proof.
  intros Hbody Hreview Hrequest Hkind message.
  unfold handleAdmissionReview, parseAdmissionReview.
  rewrite Hbody, Hreview. run. rewrite Hrequest. run.
  rewrite bool_decide_true by done. run. by rewrite <- app_assoc.
Qed.

(** The object of the request is not a Pod. *)
Lemma handle_broken_pod (r : http.Request) (st : World) (data : string)
    (review : admissionv1.AdmissionReview.t) (request : admissionv1.AdmissionRequest.t)
    (err : error) :
  http.Body r = inr data →
  json.UnmarshalAdmissionReview data = inr review →
  admissionv1.AdmissionReview.Request review = Some request →
  metav1.GroupVersionKind.Kind (admissionv1.AdmissionRequest.Kind request) = "Pod" →
  json.UnmarshalPod (runtime.RawExtension.Raw (admissionv1.AdmissionRequest.Object request))
    = inl err →
  handleAdmissionReview r st =
  (Done tt,
   {| w := http.Write (http.PlainText err) (http.WriteHeader http.StatusBadRequest (w st));
      logged := logged st ++ [ entry "In handleAdmissionReview ..." [];
                               entry "unable to complete request"
                                     [log.Str "error"; log.Str err] ] |}).
Proof.
  intros Hbody Hreview Hrequest Hkind Hpod.
  unfold handleAdmissionReview, parseAdmissionReview.
  rewrite Hbody, Hreview. run. rewrite Hrequest. run.
  rewrite bool_decide_false by (intros Hne; by apply Hne).
  rewrite Hpod. run. by rewrite <- app_assoc.
Qed.

(** The request is for a Pod: the totals are logged and the request is
    allowed, unless the encoder fails; then the status 200 is sent already
    and the status 500 of [http.Error] comes too late. *)
Lemma handle_pod (r : http.Request) (st : World) (data : string)
    (review : admissionv1.AdmissionReview.t) (request : admissionv1.AdmissionRequest.t)
    (pod : corev1.Pod.t) :
  http.Body r = inr data →
  json.UnmarshalAdmissionReview data = inr review →
  admissionv1.AdmissionReview.Request review = Some request →
  metav1.GroupVersionKind.Kind (admissionv1.AdmissionRequest.Kind request) = "Pod" →
  json.UnmarshalPod (runtime.RawExtension.Raw (admissionv1.AdmissionRequest.Object request))
    = inr pod →
  let containers := corev1.PodSpec.Containers (corev1.Pod.Spec pod) in
  let totalMemory := foldl resource.Add resource.zero (requested corev1.ResourceMemory containers) in
  let totalCPU := foldl resource.Add resource.zero (requested corev1.ResourceCPU containers) in
  let envelope := allowing (admissionv1.AdmissionRequest.UID request) in
  let w1 := http.Header_Set "Content-Type" "application/json" (w st) in
  let l1 := (logged st ++ [ entry "In handleAdmissionReview ..." [];
                            entry "Successfully decoded AdmissionReview" [] ]
             ++ containerEntries containers
             ++ [ entry "Total Memory Requested: %s\n" [log.Qty totalMemory];
                  entry "Total CPU Requested: %s\n" [log.Qty totalCPU] ])%list in
  handleAdmissionReview r st =
  match json.Encode envelope with
  | None => (Done tt, {| w := http.Write (http.JSONDocument envelope) w1; logged := l1 |})
  | Some err =>
      (Done tt,
       {| w := http.Error "could not encode response" http.StatusInternalServerError
                 (http.WriteHeader http.StatusOK w1);
          logged := (l1 ++ [ entry "could not encode response: %v" [log.Err err] ])%list |})
  end.
Proof.
  intros Hbody Hreview Hrequest Hkind Hpod containers totalMemory totalCPU envelope w1 l1.
  unfold handleAdmissionReview, parseAdmissionReview.
  rewrite Hbody, Hreview. run. rewrite Hrequest. run.
  rewrite bool_decide_false by (intros Hne; by apply Hne).
  rewrite Hpod. run. rewrite rangeContainers_run.
  fold containers. fold totalMemory. fold totalCPU.
  change {| admissionv1.AdmissionReview.TypeMeta := metav1.TypeMeta.zero;
            admissionv1.AdmissionReview.Request := None;
            admissionv1.AdmissionReview.Response := _ |} with envelope.
  subst l1 w1. unfold NewEncoder_Encode.
  destruct (json.Encode envelope) as [err|]; run;
    rewrite <- !app_assoc; cbn; by rewrite <- ?app_assoc.
Qed.

End Paths.

(** ** The handler never reads the log *)

Section Stateless.

Context {J : json.Codec}.

Lemma handle_oblivious (r : http.Request) : oblivious (handleAdmissionReview r).
Proof.
  intros w0.
  destruct (http.Body r) as [err|data] eqn:Hbody.
  { eexists _, _, _; intros l. by rewrite (handle_unread r _ err Hbody); cbn. }
  destruct (json.UnmarshalAdmissionReview data) as [err|review] eqn:Hreview.
  { eexists _, _, _; intros l. by rewrite (handle_undecoded r _ data err Hbody Hreview); cbn. }
  destruct (admissionv1.AdmissionReview.Request review) as [request|] eqn:Hrequest.
  2: { eexists _, _, _; intros l.
       by rewrite (handle_no_request r _ data review Hbody Hreview Hrequest); cbn. }
  destruct (decide (metav1.GroupVersionKind.Kind
                      (admissionv1.AdmissionRequest.Kind request) = "Pod")) as [Hkind|Hkind].
  2: { eexists _, _, _; intros l.
       by rewrite (handle_other_kind r _ data review request Hbody Hreview Hrequest Hkind); cbn. }
  destruct (json.UnmarshalPod
              (runtime.RawExtension.Raw (admissionv1.AdmissionRequest.Object request)))
    as [err|pod] eqn:Hpod.
  { eexists _, _, _; intros l.
    by rewrite (handle_broken_pod r _ data review request err Hbody Hreview Hrequest Hkind Hpod);
      cbn. }
  pose proof (λ st, handle_pod r st data review request pod Hbody Hreview Hrequest Hkind Hpod)
    as Hrun.
  cbn zeta in Hrun.
  destruct (json.Encode (allowing (admissionv1.AdmissionRequest.UID request))) as [err|].
  - eexists _, _, _; intros l. rewrite Hrun. cbn. by rewrite <- app_assoc.
  - eexists _, _, _; intros l. rewrite Hrun. by cbn.
Qed.

(** C8.  The handler is deterministic and carries no state from one request
    to the next: the log is the only object that outlives an invocation,
    and two invocations on the same request that differ in what was logged
    before them end alike (both return or both panic) and leave the same
    response: the same status code, the same header and the same body, so
    the same Allowed decision and the same echoed UID. *)
Theorem decision_is_stateless (r : http.Request) (w0 : http.ResponseWriter)
    (l1 l2 : list log.Entry) :
  let run l := handleAdmissionReview r {| w := w0; logged := l |} in
  (run l1).1 = (run l2).1 ∧ w (run l1).2 = w (run l2).2.
Proof.
  destruct (handle_oblivious r w0) as (res & w1 & entries & Hrun).
  intros run. unfold run. by rewrite !Hrun.
Qed.

End Stateless.

(** ** What the handler answers *)

Section Answers.

Context {J : json.Codec}.

Implicit Types (r : http.Request) (l : list log.Entry) (data : string).
Implicit Types (review : admissionv1.AdmissionReview.t).
Implicit Types (request : admissionv1.AdmissionRequest.t) (pod : corev1.Pod.t).

(** A request for a Pod that decodes is answered with the allowing
    envelope. *)
Lemma handle_pod_answer r l data review request pod :
  http.Body r = inr data →
  json.UnmarshalAdmissionReview data = inr review →
  admissionv1.AdmissionReview.Request review = Some request →
  metav1.GroupVersionKind.Kind (admissionv1.AdmissionRequest.Kind request) = "Pod" →
  json.UnmarshalPod (runtime.RawExtension.Raw (admissionv1.AdmissionRequest.Object request))
    = inr pod →
  ∃ st', handleAdmissionReview r (arrival l) = (Done tt, st') ∧
         delivers st' (allowing (admissionv1.AdmissionRequest.UID request)).
Proof.
  intros Hbody Hreview Hrequest Hkind Hpod.
  rewrite (handle_pod r _ data review request pod Hbody Hreview Hrequest Hkind Hpod).
  unfold delivers.
  destruct (json.Encode _) as [err|]; eexists; (split; [reflexivity|]); by split.
Qed.

(** C1.  A request that decodes to an AdmissionReview for kind Pod, with an
    object that decodes to a Pod, is answered with an envelope whose
    response carries the UID of the request, unchanged. *)
Theorem response_uid_echoes_request r l data review request pod :
  http.Body r = inr data →
  json.UnmarshalAdmissionReview data = inr review →
  admissionv1.AdmissionReview.Request review = Some request →
  metav1.GroupVersionKind.Kind (admissionv1.AdmissionRequest.Kind request) = "Pod" →
  json.UnmarshalPod (runtime.RawExtension.Raw (admissionv1.AdmissionRequest.Object request))
    = inr pod →
  ∃ st' envelope response,
    handleAdmissionReview r (arrival l) = (Done tt, st') ∧
    delivers st' envelope ∧
    admissionv1.AdmissionReview.Response envelope = Some response ∧
    admissionv1.AdmissionResponse.UID response = admissionv1.AdmissionRequest.UID request.
Proof.
  intros Hbody Hreview Hrequest Hkind Hpod.
  destruct (handle_pod_answer r l data review request pod) as (st' & Hrun & Hanswer); try done.
  by eexists st', _, _.
Qed.

(** C5.  On the same requests the response is [Allowed = true], whatever
    the Pod holds and whatever its containers request. *)
Theorem pod_is_always_allowed r l data review request pod :
  http.Body r = inr data →
  json.UnmarshalAdmissionReview data = inr review →
  admissionv1.AdmissionReview.Request review = Some request →
  metav1.GroupVersionKind.Kind (admissionv1.AdmissionRequest.Kind request) = "Pod" →
  json.UnmarshalPod (runtime.RawExtension.Raw (admissionv1.AdmissionRequest.Object request))
    = inr pod →
  ∃ st' envelope response,
    handleAdmissionReview r (arrival l) = (Done tt, st') ∧
    delivers st' envelope ∧
    admissionv1.AdmissionReview.Response envelope = Some response ∧
    admissionv1.AdmissionResponse.Allowed response = true ∧
    admissionv1.AdmissionResponse.Result response = None.
Proof.
  intros Hbody Hreview Hrequest Hkind Hpod.
  destruct (handle_pod_answer r l data review request pod) as (st' & Hrun & Hanswer); try done.
  by eexists st', _, _.
Qed.

(** C6, as amended.  On the same requests the envelope of the answer has an
    empty TypeMeta, neither kind nor API version, whatever the TypeMeta of
    the incoming envelope is. *)
Theorem envelope_has_no_type_meta r l data review request pod :
  http.Body r = inr data →
  json.UnmarshalAdmissionReview data = inr review →
  admissionv1.AdmissionReview.Request review = Some request →
  metav1.GroupVersionKind.Kind (admissionv1.AdmissionRequest.Kind request) = "Pod" →
  json.UnmarshalPod (runtime.RawExtension.Raw (admissionv1.AdmissionRequest.Object request))
    = inr pod →
  ∃ st' envelope,
    handleAdmissionReview r (arrival l) = (Done tt, st') ∧
    delivers st' envelope ∧
    admissionv1.AdmissionReview.TypeMeta envelope = metav1.TypeMeta.zero.
Proof.
  intros Hbody Hreview Hrequest Hkind Hpod.
  destruct (handle_pod_answer r l data review request pod) as (st' & Hrun & Hanswer); try done.
  by eexists st', _.
Qed.

(** C2.  On the same requests the handler logs a memory total and a CPU
    total after the lines of the containers, and each total is exactly the
    sum of the quantities that the containers request under that resource
    name; a container without such a request adds nothing. *)
Theorem totals_are_exact_sums r l data review request pod :
  http.Body r = inr data →
  json.UnmarshalAdmissionReview data = inr review →
  admissionv1.AdmissionReview.Request review = Some request →
  metav1.GroupVersionKind.Kind (admissionv1.AdmissionRequest.Kind request) = "Pod" →
  json.UnmarshalPod (runtime.RawExtension.Raw (admissionv1.AdmissionRequest.Object request))
    = inr pod →
  let containers := corev1.PodSpec.Containers (corev1.Pod.Spec pod) in
  ∃ st' totalMemory totalCPU rest,
    handleAdmissionReview r (arrival l) = (Done tt, st') ∧
    logged st' =
      (l ++ [ entry "In handleAdmissionReview ..." [];
              entry "Successfully decoded AdmissionReview" [] ]
         ++ containerEntries containers
         ++ [ entry "Total Memory Requested: %s\n" [log.Qty totalMemory];
              entry "Total CPU Requested: %s\n" [log.Qty totalCPU] ]
         ++ rest)%list ∧
    (resource.toQ totalCPU
     == sumQ (resource.toQ <$> requested corev1.ResourceCPU containers))%Q ∧
    (resource.toQ totalMemory
     == sumQ (resource.toQ <$> requested corev1.ResourceMemory containers))%Q.
Proof.
  intros Hbody Hreview Hrequest Hkind Hpod containers.
  rewrite (handle_pod r _ data review request pod Hbody Hreview Hrequest Hkind Hpod).
  fold containers.
  set (totalMemory := foldl resource.Add resource.zero _).
  set (totalCPU := foldl resource.Add resource.zero _).
  assert (resource.toQ totalCPU
          == sumQ (resource.toQ <$> requested corev1.ResourceCPU containers))%Q as HCPU.
  { unfold totalCPU. rewrite toQ_foldl_Add, toQ_zero. ring. }
  assert (resource.toQ totalMemory
          == sumQ (resource.toQ <$> requested corev1.ResourceMemory containers))%Q as Hmemory.
  { unfold totalMemory. rewrite toQ_foldl_Add, toQ_zero. ring. }
  destruct (json.Encode _) as [err|].
  - eexists _, totalMemory, totalCPU, [_]. split; [reflexivity|].
    split; [|done]. cbn. rewrite <- !app_assoc. cbn. by rewrite <- ?app_assoc.
  - eexists _, totalMemory, totalCPU, []. split; [reflexivity|].
    split; [|done]. cbn. by rewrite <- ?app_assoc.
Qed.

End Answers.

(** ** What the handler refuses, and where it panics *)

Section Refusals.

Context {J : json.Codec}.

Implicit Types (r : http.Request) (l : list log.Entry) (data : string).
Implicit Types (review : admissionv1.AdmissionReview.t).
Implicit Types (request : admissionv1.AdmissionRequest.t).

(** C4.  A request that decodes to an AdmissionReview for another kind than
    Pod is answered with status 400 and a text that names the kind of the
    request; the answer holds no envelope, so no Allowed decision. *)
Theorem other_kind_is_bad_request r l data review request :
  http.Body r = inr data →
  json.UnmarshalAdmissionReview data = inr review →
  admissionv1.AdmissionReview.Request review = Some request →
  metav1.GroupVersionKind.Kind (admissionv1.AdmissionRequest.Kind request) ≠ "Pod" →
  ∃ st',
    handleAdmissionReview r (arrival l) = (Done tt, st') ∧
    answered st' http.StatusBadRequest
      (http.PlainText ("expected request for kind Pod but got " +:+
                       metav1.GroupVersionKind.Kind (admissionv1.AdmissionRequest.Kind request))) ∧
    ∀ envelope, http.JSONDocument envelope ∉ http.body (w st').
Proof.
  intros Hbody Hreview Hrequest Hkind.
  rewrite (handle_other_kind r _ data review request Hbody Hreview Hrequest Hkind).
  eexists; split; [reflexivity|]. split; [by split|].
  intros envelope Hin. cbn in Hin. apply list_elem_of_singleton in Hin. discriminate.
Qed.

(** C7.  A request for kind Pod whose object does not decode to a Pod is
    answered with status 400 and the text of the decoding error, and the
    error is logged. *)
Theorem broken_pod_is_bad_request r l data review request (err : error) :
  http.Body r = inr data →
  json.UnmarshalAdmissionReview data = inr review →
  admissionv1.AdmissionReview.Request review = Some request →
  metav1.GroupVersionKind.Kind (admissionv1.AdmissionRequest.Kind request) = "Pod" →
  json.UnmarshalPod (runtime.RawExtension.Raw (admissionv1.AdmissionRequest.Object request))
    = inl err →
  ∃ st',
    handleAdmissionReview r (arrival l) = (Done tt, st') ∧
    answered st' http.StatusBadRequest (http.PlainText err) ∧
    logged st' = (l ++ [ entry "In handleAdmissionReview ..." [];
                         entry "unable to complete request"
                               [log.Str "error"; log.Str err] ])%list.
Proof.
  intros Hbody Hreview Hrequest Hkind Hpod.
  rewrite (handle_broken_pod r _ data review request err Hbody Hreview Hrequest Hkind Hpod).
  eexists; split; [reflexivity|]. by split.
Qed.

(** C9.  The handler reads [Request.Kind.Kind] through the result of
    [parseAdmissionReview] without looking at the error and without a nil
    guard.  When the body cannot be read or decoded, so that the result is
    nil, and when it decodes to an envelope without a request, the handler
    panics on a nil pointer: the response writer is left as it was, no
    status 400 is sent, and [httpError] logs nothing. *)
Theorem nil_dereference_skips_bad_request r (st : World) :
  (∃ err, http.Body r = inl err) ∨
  (∃ data err, http.Body r = inr data ∧ json.UnmarshalAdmissionReview data = inl err) ∨
  (∃ data review, http.Body r = inr data ∧
                  json.UnmarshalAdmissionReview data = inr review ∧
                  admissionv1.AdmissionReview.Request review = None) →
  ∃ st' entries,
    handleAdmissionReview r st = (Panic nilDereference, st') ∧
    w st' = w st ∧
    logged st' = (logged st ++ entries)%list ∧
    Forall (λ e, log.format e ≠ "unable to complete request") entries.
Proof.
  intros [(err & Hbody) | [(data & err & Hbody & Hreview)
                          | (data & review & Hbody & Hreview & Hrequest)]].
  - rewrite (handle_unread r st err Hbody).
    eexists _, _; repeat split; repeat constructor; discriminate.
  - rewrite (handle_undecoded r st data err Hbody Hreview).
    eexists _, _; repeat split; repeat constructor; discriminate.
  - rewrite (handle_no_request r st data review Hbody Hreview Hrequest).
    eexists _, _; repeat split; repeat constructor; discriminate.
Qed.

Lemma sameRequests_requested (name : corev1.ResourceName) (cs cs' : list corev1.Container.t) :
  name = corev1.ResourceCPU ∨ name = corev1.ResourceMemory →
  Forall2 sameRequests cs cs' →
  requested name cs = requested name cs'.
Proof.
  intros Hname Hsame.
  induction Hsame as [|c c' cs cs' [HCPU Hmemory] _ IH]; [done|].
  rewrite !requested_cons, IH.
  by destruct Hname as [-> | ->]; [rewrite HCPU | rewrite Hmemory].
Qed.

(** C10.  The totals that the loop over the containers computes depend on
    the cpu and memory entries of the containers' Requests alone: two lists
    of containers that agree on these entries, container by container, give
    the same totals, whatever their other requests, their limits and their
    names are, and whatever the totals and the world the loop starts from. *)
Theorem totals_ignore_other_entries (cs cs' : list corev1.Container.t)
    (totals : resource.Quantity * resource.Quantity) (st st' : World) :
  Forall2 sameRequests cs cs' →
  ∃ totals',
    (rangeContainers cs totals st).1 = Done totals' ∧
    (rangeContainers cs' totals st').1 = Done totals'.
Proof.
  intros Hsame. destruct totals as [totalMemory totalCPU].
  rewrite !rangeContainers_run. cbn.
  rewrite (sameRequests_requested corev1.ResourceMemory cs cs') by auto.
  rewrite (sameRequests_requested corev1.ResourceCPU cs cs') by auto.
  by eexists.
Qed.

End Refusals.

(** ** Runs on the sample requests *)

(** C3.  A body that is no JSON, here the text [not json], is not answered
    with status 400: the handler logs the decoding error and then panics
    on the nil AdmissionReview, with nothing written to the response. *)
Theorem malformed_body_panics :
  handleAdmissionReview (J := Samples.codec) (Samples.post "not json") Samples.fresh =
  (Panic nilDereference,
   {| w := http.NewResponseWriter;
      logged := [ entry "In handleAdmissionReview ..." [];
                  entry "Error deserializing request: %v"
                        [log.Err "invalid character 'o' in literal null (expecting 'u')"] ] |}).
Proof. vm_compute. reflexivity. Qed.

(** C6, counterexample.  The sample request for a Pod comes in an envelope
    of kind AdmissionReview and API version admission.k8s.io/v1; the
    envelope of the answer, sent with status 200, has another TypeMeta. *)
Lemma envelope_version_counterexample :
  ∃ st' envelope,
    handleAdmissionReview (J := Samples.codec)
      (Samples.post (Samples.reviewJSON Samples.uid "Pod" Samples.podJSON)) Samples.fresh
      = (Done tt, st') ∧
    answered st' http.StatusOK (http.JSONDocument envelope) ∧
    admissionv1.AdmissionReview.TypeMeta envelope ≠
    admissionv1.AdmissionReview.TypeMeta
      (Samples.review Samples.uid "Pod" Samples.podJSON).
Proof.
  eexists _, _. split; [vm_compute; reflexivity|].
  split; [split; reflexivity|]. discriminate.
Qed.

(** The sums of the claim: 500m and 500m are exactly 1, and so are 250m and
    750m; the sample Pod requests exactly 1 CPU and 384Mi of memory. *)
Example half_and_half_is_one :
  (resource.toQ (resource.Add (resource.NewMilliQuantity 500) (resource.NewMilliQuantity 500))
   == 1)%Q.
Proof. reflexivity. Qed.

Example quarter_and_three_quarters_is_one :
  (resource.toQ (resource.Add (resource.NewMilliQuantity 250) (resource.NewMilliQuantity 750))
   == resource.toQ (resource.NewQuantity 1))%Q.
Proof. reflexivity. Qed.

Example sample_pod_totals :
  let containers := corev1.PodSpec.Containers (corev1.Pod.Spec Samples.pod) in
  (sumQ (resource.toQ <$> requested corev1.ResourceCPU containers) == 1)%Q ∧
  (sumQ (resource.toQ <$> requested corev1.ResourceMemory containers)
   == inject_Z (384 * 2 ^ 20))%Q.
Proof. split; vm_compute; reflexivity. Qed.

(** A container without requests adds nothing to either total. *)
Example no_requests_no_contribution (name : corev1.ResourceName) (c : corev1.Container.t)
    (cs : list corev1.Container.t) :
  corev1.ResourceRequirements.Requests (corev1.Container.Resources c) !! name = None →
  requested name (c :: cs) = requested name cs.
Proof. intros Hnone. by rewrite requested_cons, Hnone. Qed.

(** The theorems at the sample requests. *)

Lemma response_uid_echoes_request_witness :
  let data := Samples.reviewJSON Samples.uid "Pod" Samples.podJSON in
  json.UnmarshalAdmissionReview (Codec := Samples.codec) data
    = inr (Samples.review Samples.uid "Pod" Samples.podJSON) ∧
  json.UnmarshalPod (Codec := Samples.codec) Samples.podJSON = inr Samples.pod ∧
  ∃ st' envelope response,
    handleAdmissionReview (J := Samples.codec) (Samples.post data) (arrival []) = (Done tt, st') ∧
    delivers (J := Samples.codec) st' envelope ∧
    admissionv1.AdmissionReview.Response envelope = Some response ∧
    admissionv1.AdmissionResponse.UID response = Samples.uid.
Proof.
  split; [vm_compute; reflexivity|]. split; [vm_compute; reflexivity|].
  apply (response_uid_echoes_request (J := Samples.codec)
           (Samples.post (Samples.reviewJSON Samples.uid "Pod" Samples.podJSON)) []
           (Samples.reviewJSON Samples.uid "Pod" Samples.podJSON)
           (Samples.review Samples.uid "Pod" Samples.podJSON)
           (Samples.request Samples.uid "Pod" Samples.podJSON) Samples.pod);
    vm_compute; reflexivity.
Defined.

Lemma pod_is_always_allowed_witness :
  let data := Samples.reviewJSON Samples.uid "Pod" Samples.podJSON in
  json.UnmarshalAdmissionReview (Codec := Samples.codec) data
    = inr (Samples.review Samples.uid "Pod" Samples.podJSON) ∧
  json.UnmarshalPod (Codec := Samples.codec) Samples.podJSON = inr Samples.pod ∧
  ∃ st' envelope response,
    handleAdmissionReview (J := Samples.codec) (Samples.post data) (arrival []) = (Done tt, st') ∧
    delivers (J := Samples.codec) st' envelope ∧
    admissionv1.AdmissionReview.Response envelope = Some response ∧
    admissionv1.AdmissionResponse.Allowed response = true ∧
    admissionv1.AdmissionResponse.Result response = None.
Proof.
  split; [vm_compute; reflexivity|]. split; [vm_compute; reflexivity|].
  apply (pod_is_always_allowed (J := Samples.codec)
           (Samples.post (Samples.reviewJSON Samples.uid "Pod" Samples.podJSON)) []
           (Samples.reviewJSON Samples.uid "Pod" Samples.podJSON)
           (Samples.review Samples.uid "Pod" Samples.podJSON)
           (Samples.request Samples.uid "Pod" Samples.podJSON) Samples.pod);
    vm_compute; reflexivity.
Defined.

Lemma envelope_has_no_type_meta_witness :
  let data := Samples.reviewJSON Samples.uid "Pod" Samples.podJSON in
  json.UnmarshalAdmissionReview (Codec := Samples.codec) data
    = inr (Samples.review Samples.uid "Pod" Samples.podJSON) ∧
  json.UnmarshalPod (Codec := Samples.codec) Samples.podJSON = inr Samples.pod ∧
  ∃ st' envelope,
    handleAdmissionReview (J := Samples.codec) (Samples.post data) (arrival []) = (Done tt, st') ∧
    delivers (J := Samples.codec) st' envelope ∧
    admissionv1.AdmissionReview.TypeMeta envelope = metav1.TypeMeta.zero.
Proof.
  split; [vm_compute; reflexivity|]. split; [vm_compute; reflexivity|].
  apply (envelope_has_no_type_meta (J := Samples.codec)
           (Samples.post (Samples.reviewJSON Samples.uid "Pod" Samples.podJSON)) []
           (Samples.reviewJSON Samples.uid "Pod" Samples.podJSON)
           (Samples.review Samples.uid "Pod" Samples.podJSON)
           (Samples.request Samples.uid "Pod" Samples.podJSON) Samples.pod);
    vm_compute; reflexivity.
Defined.

Lemma totals_are_exact_sums_witness :
  let data := Samples.reviewJSON Samples.uid "Pod" Samples.podJSON in
  let containers := corev1.PodSpec.Containers (corev1.Pod.Spec Samples.pod) in
  json.UnmarshalAdmissionReview (Codec := Samples.codec) data
    = inr (Samples.review Samples.uid "Pod" Samples.podJSON) ∧
  json.UnmarshalPod (Codec := Samples.codec) Samples.podJSON = inr Samples.pod ∧
  ∃ st' totalMemory totalCPU rest,
    handleAdmissionReview (J := Samples.codec) (Samples.post data) (arrival []) = (Done tt, st') ∧
    logged st' =
      ([] ++ [ entry "In handleAdmissionReview ..." [];
               entry "Successfully decoded AdmissionReview" [] ]
          ++ containerEntries containers
          ++ [ entry "Total Memory Requested: %s\n" [log.Qty totalMemory];
               entry "Total CPU Requested: %s\n" [log.Qty totalCPU] ]
          ++ rest)%list ∧
    (resource.toQ totalCPU
     == sumQ (resource.toQ <$> requested corev1.ResourceCPU containers))%Q ∧
    (resource.toQ totalMemory
     == sumQ (resource.toQ <$> requested corev1.ResourceMemory containers))%Q.
Proof.
  split; [vm_compute; reflexivity|]. split; [vm_compute; reflexivity|].
  apply (totals_are_exact_sums (J := Samples.codec)
           (Samples.post (Samples.reviewJSON Samples.uid "Pod" Samples.podJSON)) []
           (Samples.reviewJSON Samples.uid "Pod" Samples.podJSON)
           (Samples.review Samples.uid "Pod" Samples.podJSON)
           (Samples.request Samples.uid "Pod" Samples.podJSON) Samples.pod);
    vm_compute; reflexivity.
Defined.

Lemma other_kind_is_bad_request_witness :
  let data := Samples.reviewJSON Samples.uid "Deployment" Samples.podJSON in
  json.UnmarshalAdmissionReview (Codec := Samples.codec) data
    = inr (Samples.review Samples.uid "Deployment" Samples.podJSON) ∧
  "Deployment" ≠ "Pod" ∧
  ∃ st',
    handleAdmissionReview (J := Samples.codec) (Samples.post data) (arrival []) = (Done tt, st') ∧
    answered st' http.StatusBadRequest
      (http.PlainText "expected request for kind Pod but got Deployment") ∧
    ∀ envelope, http.JSONDocument envelope ∉ http.body (w st').
Proof.
  split; [vm_compute; reflexivity|]. split; [discriminate|].
  apply (other_kind_is_bad_request (J := Samples.codec)
           (Samples.post (Samples.reviewJSON Samples.uid "Deployment" Samples.podJSON)) []
           (Samples.reviewJSON Samples.uid "Deployment" Samples.podJSON)
           (Samples.review Samples.uid "Deployment" Samples.podJSON)
           (Samples.request Samples.uid "Deployment" Samples.podJSON));
    [vm_compute; reflexivity .. | discriminate].
Defined.

Lemma broken_pod_is_bad_request_witness :
  let data := Samples.reviewJSON Samples.uid "Pod" Samples.brokenPodJSON in
  json.UnmarshalAdmissionReview (Codec := Samples.codec) data
    = inr (Samples.review Samples.uid "Pod" Samples.brokenPodJSON) ∧
  json.UnmarshalPod (Codec := Samples.codec) Samples.brokenPodJSON
    = inl Samples.brokenPodError ∧
  ∃ st',
    handleAdmissionReview (J := Samples.codec) (Samples.post data) (arrival []) = (Done tt, st') ∧
    answered st' http.StatusBadRequest (http.PlainText Samples.brokenPodError) ∧
    logged st' = ([] ++ [ entry "In handleAdmissionReview ..." [];
                          entry "unable to complete request"
                                [log.Str "error"; log.Str Samples.brokenPodError] ])%list.
Proof.
  split; [vm_compute; reflexivity|]. split; [vm_compute; reflexivity|].
  apply (broken_pod_is_bad_request (J := Samples.codec)
           (Samples.post (Samples.reviewJSON Samples.uid "Pod" Samples.brokenPodJSON)) []
           (Samples.reviewJSON Samples.uid "Pod" Samples.brokenPodJSON)
           (Samples.review Samples.uid "Pod" Samples.brokenPodJSON)
           (Samples.request Samples.uid "Pod" Samples.brokenPodJSON)
           Samples.brokenPodError);
    vm_compute; reflexivity.
Defined.

Lemma nil_dereference_skips_bad_request_witness :
  json.UnmarshalAdmissionReview (Codec := Samples.codec) "{}" = inr Samples.emptyReview ∧
  admissionv1.AdmissionReview.Request Samples.emptyReview = None ∧
  ∃ st' entries,
    handleAdmissionReview (J := Samples.codec) (Samples.post "{}") Samples.fresh
      = (Panic nilDereference, st') ∧
    w st' = w Samples.fresh ∧
    logged st' = (logged Samples.fresh ++ entries)%list ∧
    Forall (λ e, log.format e ≠ "unable to complete request") entries.
Proof.
  split; [vm_compute; reflexivity|]. split; [reflexivity|].
  apply (nil_dereference_skips_bad_request (J := Samples.codec)
           (Samples.post "{}") Samples.fresh).
  right; right. exists "{}", Samples.emptyReview.
  repeat split; vm_compute; reflexivity.
Defined.

Lemma totals_ignore_other_entries_witness :
  Forall2 sameRequests [Samples.crowded] [Samples.plain] ∧
  ∃ totals',
    (rangeContainers [Samples.crowded] (resource.zero, resource.zero) Samples.fresh).1
      = Done totals' ∧
    (rangeContainers [Samples.plain] (resource.zero, resource.zero) Samples.fresh).1
      = Done totals'.
Proof.
  assert (Forall2 sameRequests [Samples.crowded] [Samples.plain]) as Hsame.
  { repeat constructor; vm_compute; reflexivity. }
  split; [exact Hsame|].
  exact (totals_ignore_other_entries [Samples.crowded] [Samples.plain]
           (resource.zero, resource.zero) Samples.fresh Samples.fresh Hsame).
Defined.

(** * Further properties of the handler *)

(** ** The helpers *)

Section Helpers.

Context {J : json.Codec}.

(** X1.  [parseAdmissionReview] never panics and never touches the response
    writer.  It returns a review exactly when it returns no error: either a
    review and nil, with nothing logged, or nil and the error, with one log
    entry that carries the error. *)
Theorem parseAdmissionReview_result (req : http.Request) (st : World) :
  ∃ res entries,
    parseAdmissionReview req st
      = (Done res, {| w := w st; logged := logged st ++ entries |}) ∧
    ((∃ review, res = (Some review, None) ∧ entries = []) ∨
     (∃ err format, res = (None, Some err) ∧ entries = [ entry format [log.Err err] ])).
Proof.
  unfold parseAdmissionReview.
  destruct (http.Body req) as [err|data].
  { eexists _, _. split; [run; reflexivity|]. right. by eexists _, _. }
  destruct (json.UnmarshalAdmissionReview data) as [err|review].
  { eexists _, _. split; [run; reflexivity|]. right. by eexists _, _. }
  exists (Some review, None), []. split; [|left; by eexists].
  destruct st; run. by rewrite app_nil_r.
Qed.

(** X2.  [httpError] appends the text of the error to the body and one
    entry to the log, and leaves the header map alone.  The status becomes
    400 when no status was sent before; a status that was sent stays. *)
Theorem httpError_effect (err : error) (st : World) :
  httpError err st =
  (Done tt,
   {| w := {| http.Header := http.Header (w st);
              http.status := Some (default http.StatusBadRequest (http.status (w st)));
              http.body := http.body (w st) ++ [ http.PlainText err ] |};
      logged := logged st ++ [ entry "unable to complete request"
                                     [log.Str "error"; log.Str err] ] |}).
Proof.
  unfold httpError. run. unfold http.Write, http.WriteHeader.
  destruct (http.status (w st)) as [code|] eqn:Hstatus; cbn; by rewrite ?Hstatus.
Qed.

End Helpers.

(** ** The loop *)

Lemma requested_app (name : corev1.ResourceName) (cs1 cs2 : list corev1.Container.t) :
  requested name (cs1 ++ cs2) = (requested name cs1 ++ requested name cs2)%list.
Proof. apply omap_app. Qed.

Lemma containerEntries_app (cs1 cs2 : list corev1.Container.t) :
  containerEntries (cs1 ++ cs2) = (containerEntries cs1 ++ containerEntries cs2)%list.
Proof. apply bind_app. Qed.

(** X3.  The loop over a list of containers in two parts is the loop over
    the first part followed by the loop over the second, from the totals
    and the log the first one leaves. *)
Theorem rangeContainers_app (cs1 cs2 : list corev1.Container.t)
    (totals : resource.Quantity * resource.Quantity) (st : World) :
  rangeContainers (cs1 ++ cs2) totals st
  = (rangeContainers cs1 totals ≫= rangeContainers cs2) st.
Proof.
  destruct totals as [totalMemory totalCPU].
  unfold mbind, M_bind. rewrite !rangeContainers_run. cbn.
  rewrite !requested_app, !foldl_app, containerEntries_app.
  by rewrite app_assoc.
Qed.

Lemma sumQ_Permutation (l l' : list Q) : l ≡ₚ l' → (sumQ l == sumQ l')%Q.
Proof.
  induction 1 as [|x l l' _ IH|x y l|l l' l'' _ IH _ IH'].
  - reflexivity.
  - cbn. by rewrite IH.
  - cbn. ring.
  - by rewrite IH.
Qed.

Lemma total_Permutation (name : corev1.ResourceName) (cs cs' : list corev1.Container.t)
    (total : resource.Quantity) :
  cs ≡ₚ cs' →
  (resource.toQ (foldl resource.Add total (requested name cs))
   == resource.toQ (foldl resource.Add total (requested name cs')))%Q.
Proof.
  intros Hperm. rewrite !toQ_foldl_Add.
  apply Qplus_comp; [reflexivity|].
  apply sumQ_Permutation. apply fmap_Permutation. unfold requested. by rewrite Hperm.
Qed.

(** X4.  The totals do not depend on the order of the containers: the loop
    over a permutation of the containers returns totals that denote the same
    numbers. *)
Theorem totals_invariant_under_permutation (cs cs' : list corev1.Container.t)
    (totals : resource.Quantity * resource.Quantity) (st st' : World) :
  cs ≡ₚ cs' →
  ∃ totalMemory totalCPU totalMemory' totalCPU',
    (rangeContainers cs totals st).1 = Done (totalMemory, totalCPU) ∧
    (rangeContainers cs' totals st').1 = Done (totalMemory', totalCPU') ∧
    (resource.toQ totalMemory == resource.toQ totalMemory')%Q ∧
    (resource.toQ totalCPU == resource.toQ totalCPU')%Q.
Proof.
  intros Hperm. destruct totals as [totalMemory totalCPU].
  rewrite !rangeContainers_run. cbn.
  eexists _, _, _, _. split; [reflexivity|]. split; [reflexivity|].
  split; by apply total_Permutation.
Qed.

(** X5.  Containers that request neither cpu nor memory leave the loop
    without effect: the totals come back as they went in, and nothing is
    logged. *)
Theorem no_requests_keep_totals (cs : list corev1.Container.t)
    (totals : resource.Quantity * resource.Quantity) (st : World) :
  Forall (λ c,
    let Requests := corev1.ResourceRequirements.Requests (corev1.Container.Resources c) in
    Requests !! corev1.ResourceCPU = None ∧ Requests !! corev1.ResourceMemory = None) cs →
  rangeContainers cs totals st = (Done totals, st).
Proof.
  intros Hnone. revert totals st.
  induction Hnone as [|c cs [HCPU Hmemory] _ IH]; intros [totalMemory totalCPU] st; [done|].
  cbn [rangeContainers]. unfold addContainer. cbn zeta in HCPU, Hmemory.
  rewrite HCPU, Hmemory. run. apply IH.
Qed.

(** ** Every request *)

Section Every.

Context {J : json.Codec}.

Implicit Types (r : http.Request) (l : list log.Entry) (st : World).
Implicit Types (request : admissionv1.AdmissionRequest.t) (pod : corev1.Pod.t).

(** Every request is of one of the six kinds. *)
Lemma fate r : Fate r.
Proof.
  destruct (http.Body r) as [err|data] eqn:Hbody; [by eapply Unread|].
  destruct (json.UnmarshalAdmissionReview data) as [err|review] eqn:Hreview;
    [by eapply Undecoded|].
  destruct (admissionv1.AdmissionReview.Request review) as [request|] eqn:Hrequest;
    [|by eapply NoRequest].
  destruct (decide (metav1.GroupVersionKind.Kind
                      (admissionv1.AdmissionRequest.Kind request) = "Pod")) as [Hkind|Hkind];
    [|by eapply OtherKind].
  destruct (json.UnmarshalPod
              (runtime.RawExtension.Raw (admissionv1.AdmissionRequest.Object request)))
    as [err|pod] eqn:Hpod; [by eapply BrokenPod | by eapply GoodPod].
Qed.

(** Takes the goal, about the run of the handler on [r] from [st], to the
    six kinds of request, with the run replaced by what it comes to. *)
Ltac by_fate r st :=
  let err := fresh "err" in
  let data := fresh "data" in
  let review := fresh "review" in
  let request := fresh "request" in
  let pod := fresh "pod" in
  let Hbody := fresh "Hbody" in
  let Hreview := fresh "Hreview" in
  let Hrequest := fresh "Hrequest" in
  let Hkind := fresh "Hkind" in
  let Hpod := fresh "Hpod" in
  let Hencode := fresh "Hencode" in
  destruct (fate r) as [ err Hbody | data err Hbody Hreview | data review Hbody Hreview Hrequest
                       | data review request Hbody Hreview Hrequest Hkind
                       | data review request err Hbody Hreview Hrequest Hkind Hpod
                       | data review request pod Hbody Hreview Hrequest Hkind Hpod ];
  [ rewrite (handle_unread r st err Hbody)
  | rewrite (handle_undecoded r st data err Hbody Hreview)
  | rewrite (handle_no_request r st data review Hbody Hreview Hrequest)
  | rewrite (handle_other_kind r st data review request Hbody Hreview Hrequest Hkind)
  | rewrite (handle_broken_pod r st data review request err Hbody Hreview Hrequest Hkind Hpod)
  | rewrite (handle_pod r st data review request pod Hbody Hreview Hrequest Hkind Hpod);
    cbv zeta;
    destruct (json.Encode (allowing (admissionv1.AdmissionRequest.UID request)))
      as [err|] eqn:Hencode ];
  cbn.

(** X6.  The handler panics exactly on the requests that hold no
    AdmissionRequest: the body cannot be read, or it does not decode, or
    the envelope has no request.  On every other request, and on no
    request but these, it returns. *)
Theorem panics_exactly_without_request r st :
  ((handleAdmissionReview r st).1 = Panic nilDereference ↔
   ∀ request, ¬ holdsRequest r request) ∧
  ((handleAdmissionReview r st).1 = Done tt ↔ ∃ request, holdsRequest r request).
Proof.
  by_fate r st; (split; split; [intros Hpanic | intros Hnone | intros Hdone | intros [request' Hholds]]);
    try done;
    try (by exists request, data, review);
    try (destruct Hholds as (data' & review' & Hbody' & Hreview' & Hrequest'); congruence);
    try (destruct (Hnone request); by exists data, review).
  - intros request (data & review & Hbody' & _). congruence.
  - intros request (data' & review & Hbody' & Hreview' & _). congruence.
  - intros request (data' & review' & Hbody' & Hreview' & Hrequest'). congruence.
Qed.


(** X8.  The handler answers with a JSON envelope, as the whole body and
    with status 200, exactly on the requests for a Pod that decode and whose
    answer the encoder writes. *)
Theorem envelope_iff_accepted r l :
  (∃ envelope,
     answered (handleAdmissionReview r (arrival l)).2 http.StatusOK
              (http.JSONDocument envelope))
  ↔ accepted r.
Proof.
  by_fate r (arrival l);
    (split; [intros (envelope & Hstatus & Hwritten)
            | intros (request' & pod' & Hholds & [Hkind' Hpod'] & Hencode')]);
    try discriminate;
    try (destruct Hholds as (data' & review' & Hbody' & Hreview' & Hrequest'); congruence).
  - exists request, pod. split; [by exists data, review|]. by split.
  - by eexists.
Qed.

(** X9.  The handler answers 400 exactly on the requests for another kind
    than Pod and on the requests for a Pod that does not decode. *)
Theorem bad_request_iff_refused r l :
  http.status (w (handleAdmissionReview r (arrival l)).2) = Some http.StatusBadRequest
  ↔ refused r.
Proof.
  by_fate r (arrival l); (split; [intros Hstatus | intros (request' & Hholds & Hwhy)]);
    try discriminate;
    try (destruct Hholds as (data' & review' & Hbody' & Hreview' & Hrequest');
         destruct Hwhy as [Hkind'|[err' Hpod']]; congruence).
  - exists request. split; [by exists data, review|]. by left.
  - exists request. split; [by exists data, review|]. right. by exists err.
Qed.



(** X12.  The answer to a request for a Pod depends on the Pod in no way:
    two requests for Pods that decode and carry the same UID are answered
    alike, whatever the two Pods hold. *)
Theorem response_independent_of_pod r1 r2 l1 l2 request1 request2 pod1 pod2 :
  holdsRequest r1 request1 → holdsPod request1 pod1 →
  holdsRequest r2 request2 → holdsPod request2 pod2 →
  admissionv1.AdmissionRequest.UID request1 = admissionv1.AdmissionRequest.UID request2 →
  let out1 := handleAdmissionReview r1 (arrival l1) in
  let out2 := handleAdmissionReview r2 (arrival l2) in
  out1.1 = out2.1 ∧ w out1.2 = w out2.2.
Proof.
  intros (data1 & review1 & Hbody1 & Hreview1 & Hrequest1) [Hkind1 Hpod1]
         (data2 & review2 & Hbody2 & Hreview2 & Hrequest2) [Hkind2 Hpod2] HUID out1 out2.
  unfold out1, out2.
  rewrite (handle_pod r1 _ data1 review1 request1 pod1 Hbody1 Hreview1 Hrequest1 Hkind1 Hpod1).
  rewrite (handle_pod r2 _ data2 review2 request2 pod2 Hbody2 Hreview2 Hrequest2 Hkind2 Hpod2).
  cbv zeta. rewrite HUID. by destruct (json.Encode _).
Qed.

(** X13.  The handler only appends to the log, and what it appends begins
    with its entry line, whatever the request is and also when it panics. *)
Theorem log_is_appended r st :
  ∃ rest,
    logged (handleAdmissionReview r st).2
    = (logged st ++ entry "In handleAdmissionReview ..." [] :: rest)%list.
Proof.
  by_fate r st; rewrite <- ?app_assoc; by eexists.
Qed.

End Every.

(** ** Pods without requests *)

Section Quiet.

Context {J : json.Codec}.

Lemma requested_none (name : corev1.ResourceName) (cs : list corev1.Container.t) :
  Forall (λ c, corev1.ResourceRequirements.Requests (corev1.Container.Resources c) !! name
               = None) cs →
  requested name cs = [].
Proof.
  induction 1 as [|c cs Hnone _ IH]; [done|]. by rewrite requested_cons, Hnone.
Qed.

Lemma containerEntries_none (cs : list corev1.Container.t) :
  Forall (λ c,
    let Requests := corev1.ResourceRequirements.Requests (corev1.Container.Resources c) in
    Requests !! corev1.ResourceCPU = None ∧ Requests !! corev1.ResourceMemory = None) cs →
  containerEntries cs = [].
Proof.
  induction 1 as [|c cs [HCPU Hmemory] _ IH]; [done|].
  unfold containerEntries in *. cbn [mbind list_bind]. cbn zeta in HCPU, Hmemory.
  by rewrite HCPU, Hmemory, IH.
Qed.

(** X14.  A Pod whose containers request neither cpu nor memory, and so a
    Pod without containers, is allowed like any other, and the two totals
    that are logged are the zero quantity, with no line for any container. *)
Theorem quiet_pod_logs_zero_totals (r : http.Request) (l : list log.Entry)
    (request : admissionv1.AdmissionRequest.t) (pod : corev1.Pod.t) :
  holdsRequest r request → holdsPod request pod →
  Forall (λ c,
    let Requests := corev1.ResourceRequirements.Requests (corev1.Container.Resources c) in
    Requests !! corev1.ResourceCPU = None ∧ Requests !! corev1.ResourceMemory = None)
    (corev1.PodSpec.Containers (corev1.Pod.Spec pod)) →
  ∃ st' rest,
    handleAdmissionReview r (arrival l) = (Done tt, st') ∧
    delivers st' (allowing (admissionv1.AdmissionRequest.UID request)) ∧
    logged st' =
      (l ++ [ entry "In handleAdmissionReview ..." [];
              entry "Successfully decoded AdmissionReview" [];
              entry "Total Memory Requested: %s\n" [log.Qty resource.zero];
              entry "Total CPU Requested: %s\n" [log.Qty resource.zero] ]
         ++ rest)%list.
Proof.
  intros (data & review & Hbody & Hreview & Hrequest) [Hkind Hpod] Hnone.
  rewrite (handle_pod r _ data review request pod Hbody Hreview Hrequest Hkind Hpod).
  cbv zeta. unfold delivers.
  rewrite (containerEntries_none _ Hnone).
  rewrite !requested_none by (eapply Forall_impl; [exact Hnone|]; by intros c [? ?]).
  destruct (json.Encode _) as [err|]; cbn.
  - eexists _, [_]. split; [reflexivity|]. split; [by split|]. cbn.
    by rewrite <- !app_assoc.
  - eexists _, []. split; [reflexivity|]. by split.
Qed.

End Quiet.

Lemma quiet_pod_logs_zero_totals_witness :
  let r := Samples.post (Samples.reviewJSON Samples.uid "Pod" Fixtures.quietPodJSON) in
  let request := Samples.request Samples.uid "Pod" Fixtures.quietPodJSON in
  holdsRequest (J := Fixtures.codec) r request ∧
  holdsPod (J := Fixtures.codec) request Fixtures.quietPod ∧
  ∃ st' rest,
    handleAdmissionReview (J := Fixtures.codec) r (arrival []) = (Done tt, st') ∧
    delivers (J := Fixtures.codec) st' (allowing Samples.uid) ∧
    logged st' =
      ([] ++ [ entry "In handleAdmissionReview ..." [];
               entry "Successfully decoded AdmissionReview" [];
               entry "Total Memory Requested: %s\n" [log.Qty resource.zero];
               entry "Total CPU Requested: %s\n" [log.Qty resource.zero] ]
          ++ rest)%list.
Proof.
  intros r request.
  assert (holdsRequest (J := Fixtures.codec) r request) as Hholds.
  { exists (Samples.reviewJSON Samples.uid "Pod" Fixtures.quietPodJSON),
           (Samples.review Samples.uid "Pod" Fixtures.quietPodJSON).
    repeat split; vm_compute; reflexivity. }
  assert (holdsPod (J := Fixtures.codec) request Fixtures.quietPod) as HPod.
  { split; vm_compute; reflexivity. }
  split; [exact Hholds|]. split; [exact HPod|].
  apply (quiet_pod_logs_zero_totals (J := Fixtures.codec) r [] request Fixtures.quietPod
           Hholds HPod).
  repeat constructor.
Defined.

(** The further properties at the sample requests. *)

Lemma totals_invariant_under_permutation_witness :
  let cs := [ Samples.crowded; Samples.container "batch" 250 (64 * 2 ^ 20) ] in
  let cs' := [ Samples.container "batch" 250 (64 * 2 ^ 20); Samples.crowded ] in
  cs ≡ₚ cs' ∧
  ∃ totalMemory totalCPU totalMemory' totalCPU',
    (rangeContainers cs (resource.zero, resource.zero) Samples.fresh).1
      = Done (totalMemory, totalCPU) ∧
    (rangeContainers cs' (resource.zero, resource.zero) Samples.fresh).1
      = Done (totalMemory', totalCPU') ∧
    (resource.toQ totalMemory == resource.toQ totalMemory')%Q ∧
    (resource.toQ totalCPU == resource.toQ totalCPU')%Q.
Proof.
  split; [apply perm_swap|].
  apply (totals_invariant_under_permutation
           [ Samples.crowded; Samples.container "batch" 250 (64 * 2 ^ 20) ]
           [ Samples.container "batch" 250 (64 * 2 ^ 20); Samples.crowded ]
           (resource.zero, resource.zero) Samples.fresh Samples.fresh).
  apply perm_swap.
Defined.

Lemma no_requests_keep_totals_witness :
  Forall (λ c,
    let Requests := corev1.ResourceRequirements.Requests (corev1.Container.Resources c) in
    Requests !! corev1.ResourceCPU = None ∧ Requests !! corev1.ResourceMemory = None)
    [ Fixtures.idle; Fixtures.idle ] ∧
  rangeContainers [ Fixtures.idle; Fixtures.idle ]
                  (resource.NewQuantity 7, resource.NewMilliQuantity 250) Samples.fresh
  = (Done (resource.NewQuantity 7, resource.NewMilliQuantity 250), Samples.fresh).
Proof.
  assert (Forall (λ c,
    let Requests := corev1.ResourceRequirements.Requests (corev1.Container.Resources c) in
    Requests !! corev1.ResourceCPU = None ∧ Requests !! corev1.ResourceMemory = None)
    [ Fixtures.idle; Fixtures.idle ]) as Hnone.
  { repeat constructor. }
  split; [exact Hnone|].
  exact (no_requests_keep_totals [ Fixtures.idle; Fixtures.idle ]
           (resource.NewQuantity 7, resource.NewMilliQuantity 250) Samples.fresh Hnone).
Defined.

Lemma response_independent_of_pod_witness :
  let r1 := Samples.post (Samples.reviewJSON Samples.uid "Pod" Samples.podJSON) in
  let r2 := Samples.post (Samples.reviewJSON Samples.uid "Pod" Fixtures.quietPodJSON) in
  let request1 := Samples.request Samples.uid "Pod" Samples.podJSON in
  let request2 := Samples.request Samples.uid "Pod" Fixtures.quietPodJSON in
  holdsRequest (J := Fixtures.codec) r1 request1 ∧
  holdsPod (J := Fixtures.codec) request1 Samples.pod ∧
  holdsRequest (J := Fixtures.codec) r2 request2 ∧
  holdsPod (J := Fixtures.codec) request2 Fixtures.quietPod ∧
  (handleAdmissionReview (J := Fixtures.codec) r1 (arrival [])).1
    = (handleAdmissionReview (J := Fixtures.codec) r2 (arrival [])).1 ∧
  w (handleAdmissionReview (J := Fixtures.codec) r1 (arrival [])).2
    = w (handleAdmissionReview (J := Fixtures.codec) r2 (arrival [])).2.
Proof.
  intros r1 r2 request1 request2.
  assert (holdsRequest (J := Fixtures.codec) r1 request1) as H1.
  { exists (Samples.reviewJSON Samples.uid "Pod" Samples.podJSON),
           (Samples.review Samples.uid "Pod" Samples.podJSON).
    repeat split; vm_compute; reflexivity. }
  assert (holdsPod (J := Fixtures.codec) request1 Samples.pod) as P1.
  { split; vm_compute; reflexivity. }
  assert (holdsRequest (J := Fixtures.codec) r2 request2) as H2.
  { exists (Samples.reviewJSON Samples.uid "Pod" Fixtures.quietPodJSON),
           (Samples.review Samples.uid "Pod" Fixtures.quietPodJSON).
    repeat split; vm_compute; reflexivity. }
  assert (holdsPod (J := Fixtures.codec) request2 Fixtures.quietPod) as P2.
  { split; vm_compute; reflexivity. }
  repeat (split; [assumption|]).
  exact (response_independent_of_pod (J := Fixtures.codec)
           r1 r2 [] [] request1 request2 Samples.pod Fixtures.quietPod
           H1 P1 H2 P2 eq_refl).
Defined.


Lemma envelope_iff_accepted_witness :
  let r := Samples.post (Samples.reviewJSON Samples.uid "Pod" Samples.podJSON) in
  accepted (J := Samples.codec) r ∧
  ∃ envelope,
    answered (handleAdmissionReview (J := Samples.codec) r (arrival [])).2 http.StatusOK
             (http.JSONDocument envelope).
Proof.
  intros r.
  assert (accepted (J := Samples.codec) r) as Haccepted.
  { exists (Samples.request Samples.uid "Pod" Samples.podJSON), Samples.pod.
    split; [|split; [split|]]; try (vm_compute; reflexivity).
    exists (Samples.reviewJSON Samples.uid "Pod" Samples.podJSON),
           (Samples.review Samples.uid "Pod" Samples.podJSON).
    repeat split; vm_compute; reflexivity. }
  split; [exact Haccepted|].
  exact (proj2 (envelope_iff_accepted (J := Samples.codec) r []) Haccepted).
Defined.

Lemma bad_request_iff_refused_witness :
  let r := Samples.post (Samples.reviewJSON Samples.uid "Pod" Samples.brokenPodJSON) in
  refused (J := Samples.codec) r ∧
  http.status (w (handleAdmissionReview (J := Samples.codec) r (arrival [])).2)
    = Some http.StatusBadRequest.
Proof.
  intros r.
  assert (refused (J := Samples.codec) r) as Hrefused.
  { exists (Samples.request Samples.uid "Pod" Samples.brokenPodJSON).
    split.
    - exists (Samples.reviewJSON Samples.uid "Pod" Samples.brokenPodJSON),
             (Samples.review Samples.uid "Pod" Samples.brokenPodJSON).
      repeat split; vm_compute; reflexivity.
    - right. exists Samples.brokenPodError. vm_compute; reflexivity. }
  split; [exact Hrefused|].
  exact (proj2 (bad_request_iff_refused (J := Samples.codec) r []) Hrefused).
Defined.


Lemma panics_exactly_without_request_witness :
  (∀ request, ¬ holdsRequest (J := Samples.codec) (Samples.post "{}") request) ∧
  (handleAdmissionReview (J := Samples.codec) (Samples.post "{}") Samples.fresh).1
    = Panic nilDereference ∧
  (∃ request,
     holdsRequest (J := Samples.codec)
       (Samples.post (Samples.reviewJSON Samples.uid "Deployment" Samples.podJSON)) request) ∧
  (handleAdmissionReview (J := Samples.codec)
     (Samples.post (Samples.reviewJSON Samples.uid "Deployment" Samples.podJSON))
     Samples.fresh).1 = Done tt.
Proof.
  assert (∀ request, ¬ holdsRequest (J := Samples.codec) (Samples.post "{}") request)
    as Hnone.
  { intros request (data & review & Hbody & Hreview & Hrequest).
    injection Hbody as <-. vm_compute in Hreview. injection Hreview as <-.
    discriminate Hrequest. }
  assert (∃ request,
     holdsRequest (J := Samples.codec)
       (Samples.post (Samples.reviewJSON Samples.uid "Deployment" Samples.podJSON)) request)
    as Hsome.
  { exists (Samples.request Samples.uid "Deployment" Samples.podJSON),
           (Samples.reviewJSON Samples.uid "Deployment" Samples.podJSON),
           (Samples.review Samples.uid "Deployment" Samples.podJSON).
    repeat split; vm_compute; reflexivity. }
  split; [exact Hnone|]. split; [|split; [exact Hsome|]].
  - exact (proj2 (proj1 (panics_exactly_without_request (J := Samples.codec)
                           (Samples.post "{}") Samples.fresh)) Hnone).
  - exact (proj2 (proj2 (panics_exactly_without_request (J := Samples.codec)
                           (Samples.post (Samples.reviewJSON Samples.uid "Deployment"
                                                             Samples.podJSON))
                           Samples.fresh)) Hsome).
Defined.
